(** * mindctrl: the server lifespan of [mindctrl/main.py]

    A shallow embedding of [write_healthcheck_file], [get_settings] and the
    [lifespan] context manager, together with the [collections.deque] that
    [lifespan] creates as the ring buffer of recent events.

    Calls into collaborators ([setup_db], [setup_mqtt_client], ...) and into
    the operating system are observable events; what each of them returns or
    raises is read from a [World]. A run of [lifespan] is therefore a trace of
    events, the final state of the [lru_cache] of [get_settings], and either
    an exception or a normal exit. *)

From Stdlib Require Import String Ascii.
From Stdlib Require Import List ZArith Bool Arith Lia.
Import ListNotations.

Local Open Scope string_scope.
Local Open Scope nat_scope.
Local Open Scope list_scope.

(** ** [collections.deque] with a [maxlen] *)

Module Deque.

Section Defs.
Context {A : Type}.

(** A deque holds its items oldest first; [maxlen = None] is the unbounded
    deque. *)
Record deque : Type := mkDeque {
  items : list A;
  maxlen : option nat
}.

(** [collections.deque(maxlen=m)] *)
Definition new (m : option nat) : deque :=
  {| items := []; maxlen := m |}.

(** Whether a deque of [n] items is over its bound. *)
Definition needs_trim (m : option nat) (n : nat) : bool :=
  match m with
  | None => false
  | Some k => k <? n
  end.

(** [d.popleft()] on the items. *)
Definition popleft_items (xs : list A) : list A := tl xs.

(** [d.append(x)]: the item is added on the right, and a deque that is then
    over its bound drops its leftmost item. *)
Definition append (d : deque) (x : A) : deque :=
  let xs := items d ++ [x] in
  {| items := if needs_trim (maxlen d) (length xs) then popleft_items xs else xs;
     maxlen := maxlen d |}.

(** [list(d)] *)
Definition snapshot (d : deque) : list A := items d.

(** [len(d)] *)
Definition len (d : deque) : nat := length (items d).

(** [for x in rs: d.append(x)] *)
Definition appends (d : deque) (rs : list A) : deque :=
  fold_left append rs d.

End Defs.

Arguments deque : clear implicits.

End Deque.

(** The last [n] elements of a list, in the list's order. *)
Definition lastn {A : Type} (n : nat) (l : list A) : list A :=
  skipn (length l - n) l.

(** An event record is a [dict] of the listener's making. *)
Definition EventRecord : Type := list (string * string).

(** [collections.deque(maxlen=20)], as [lifespan] creates it. The listener
    coroutine and the yielded dict are given this one deque. *)
Definition state_ring_buffer_maxlen : nat := 20.

Definition new_state_ring_buffer : Deque.deque EventRecord :=
  Deque.new (Some state_ring_buffer_maxlen).

(** ** Settings and handles *)

(** Modelled from the spec: [config.py] is not among the sources. The
    records hold the fields that [main.py] reads; the store and events
    settings carry their discriminating kind and the rest of their
    configuration as an opaque string. *)
Record StoreSettings : Type := mkStoreSettings {
  store_type : string;
  store_config : string
}.

Record EventsSettings : Type := mkEventsSettings {
  events_type : string;
  events_config : string
}.

(** Modelled from the spec: [AppSettings] of [config.py]; [notify_fd] is the
    optional file descriptor of the readiness signal. *)
Record AppSettings : Type := mkAppSettings {
  store : StoreSettings;
  events : EventsSettings;
  force_publish_models : bool;
  notify_fd : option Z;
  include_challenger_models : bool
}.

(** The database engine, the MQTT client and the loaded models are handles
    made by the collaborators. *)
Definition Engine : Type := nat.
Definition MqttClient : Type := nat.
Definition LoadedModels : Type := list string.

(** [partial(insert_summary, engine, include_challenger_models)] *)
Record InsertSummaryPartial : Type := mkPartial {
  partial_engine : Engine;
  partial_include_challenger_models : bool
}.

(** The coroutines that [lifespan] turns into tasks. *)
Inductive Coroutine : Type :=
| poll_registry (delay : Z)
| listen_to_mqtt (client : MqttClient)
                 (state_ring_buffer : Deque.deque EventRecord)
                 (insert_summary_partial : InsertSummaryPartial).

(** An [asyncio.Task], known by the coroutine it runs. *)
Record Task : Type := mkTask { task_coro : Coroutine }.

(** The dict that [lifespan] yields. *)
Record LifespanState : Type := mkLifespanState {
  st_state_ring_buffer : Deque.deque EventRecord;
  st_loaded_models : LoadedModels;
  st_database_engine : Engine
}.

(** ** Exceptions, events and the world *)

Inductive Exn : Type :=
| ValueError (msg : string)
| TypeError (msg : string)
| CancelledError
| OtherError (what : string).

(** The outcome of a call: an exception or a value. *)
Definition Result (A : Type) : Type := (Exn + A)%type.

(** The observable steps of a run. A call into a collaborator or into the
    operating system is recorded with its outcome. *)
Inductive Event : Type :=
| EvAppSettings (r : Result AppSettings)
| EvLogInfo (msg : string)
| EvLogInfoDump (s : AppSettings)
| EvCreateTask (c : Coroutine)
| EvSetupDb (s : StoreSettings) (r : Result Engine)
| EvSetupMqttClient (e : EventsSettings) (r : Result MqttClient)
| EvLogSystemModels (force : bool) (r : Result LoadedModels)
| EvConnectToMlflow (s : AppSettings) (r : Result unit)
| EvOsWrite (fd : Z) (data : list Byte.byte) (r : Result Z)
| EvOsClose (fd : Z) (r : Result unit)
| EvYield (st : LifespanState) (r : Result unit)
| EvTaskCancel (t : Task)
| EvTaskAwait (t : Task) (r : Result unit)
| EvEngineDispose (e : Engine) (r : Result unit).

(** What the surroundings of [main.py] answer: the settings that
    [AppSettings()] reads from the environment, the outcome of each
    collaborator and system call, how the served application ends at the
    [yield] (normally, or with an exception thrown into the generator), and
    how the await of a task ends. *)
Record World : Type := mkWorld {
  AppSettings_returns : Result AppSettings;
  setup_db_returns : StoreSettings -> Result Engine;
  setup_mqtt_client_returns : EventsSettings -> Result MqttClient;
  log_system_models_returns : bool -> Result LoadedModels;
  connect_to_mlflow_returns : AppSettings -> Result unit;
  os_write_returns : Z -> list Byte.byte -> Result Z;
  os_close_returns : Z -> Result unit;
  yield_returns : LifespanState -> Result unit;
  task_await_returns : Task -> Result unit;
  engine_dispose_returns : Engine -> Result unit
}.

(** ** The monad of runs *)

(** The [lru_cache] of [get_settings]: the function takes no argument, so
    the cache has the one entry of the empty argument tuple. *)
Definition Cache : Type := option AppSettings.

Record Run (A : Type) : Type := mkRun {
  trace : list Event;
  cache : Cache;
  outcome : Result A
}.

Arguments mkRun {A}.
Arguments trace {A}.
Arguments cache {A}.
Arguments outcome {A}.

Definition M (A : Type) : Type := Cache -> Run A.

Definition ret {A : Type} (a : A) : M A :=
  fun c => mkRun [] c (inr a).

Definition raise {A : Type} (e : Exn) : M A :=
  fun c => mkRun [] c (inl e).

(** The run [r], after the events [t]. *)
Definition after {A : Type} (t : list Event) (r : Run A) : Run A :=
  match r with
  | mkRun t' c o => mkRun (t ++ t') c o
  end.

Definition bind {A B : Type} (m : M A) (f : A -> M B) : M B :=
  fun c =>
    match m c with
    | mkRun t c' (inl e) => mkRun t c' (inl e)
    | mkRun t c' (inr a) => after t (f a c')
    end.

Declare Scope run_scope.
Delimit Scope run_scope with run.
Notation "x <- m ;; k" := (bind m (fun x => k))
  (at level 61, m at next level, right associativity) : run_scope.
Notation "m ;; k" := (bind m (fun _ => k))
  (at level 61, right associativity) : run_scope.
Local Open Scope run_scope.

Definition emit (e : Event) : M unit :=
  fun c => mkRun [e] c (inr tt).

Definition lift {A : Type} (r : Result A) : M A :=
  match r with
  | inl e => raise e
  | inr a => ret a
  end.

(** A call whose outcome [r] the world gives. *)
Definition call {A : Type} (ev : Result A -> Event) (r : Result A) : M A :=
  emit (ev r) ;; lift r.

Definition get_cache : M Cache :=
  fun c => mkRun [] c (inr c).

Definition put_cache (c' : Cache) : M unit :=
  fun _ => mkRun [] c' (inr tt).

(** [try: body / except asyncio.CancelledError: handler] *)
Definition try_except_CancelledError (body handler : M unit) : M unit :=
  fun c =>
    match body c with
    | mkRun t c' (inl CancelledError) => after t (handler c')
    | r => r
    end.

(** A call observed from outside: its exception is a value of the caller. *)
Definition attempt {A : Type} (m : M A) : M (Result A) :=
  fun c =>
    match m c with
    | mkRun t c' o => mkRun t c' (inr o)
    end.

(** ** Python values *)

(** The truth value of an [Optional[int]]: [None] and [0] are falsy. *)
Definition py_bool (v : option Z) : bool :=
  match v with
  | None => false
  | Some n => negb (n =? 0)%Z
  end.

(** [int(v)]: an [int] is its own value, and [int(None)] is a [TypeError]. *)
Definition py_int (v : option Z) : Result Z :=
  match v with
  | Some n => inr n
  | None => inl (TypeError "int() argument must not be 'NoneType'")
  end.

(** [b"\n"] *)
Definition newline : list Byte.byte := [Byte.x0a].

(** ** The collaborators, as calls *)

Definition logger_info (msg : string) : M unit := emit (EvLogInfo msg).

Definition logger_info_dump (s : AppSettings) : M unit := emit (EvLogInfoDump s).

Definition AppSettings_new (w : World) : M AppSettings :=
  call EvAppSettings (AppSettings_returns w).

Definition create_task (c : Coroutine) : M Task :=
  emit (EvCreateTask c) ;; ret (mkTask c).

Definition setup_db (w : World) (s : StoreSettings) : M Engine :=
  call (EvSetupDb s) (setup_db_returns w s).

Definition setup_mqtt_client (w : World) (e : EventsSettings) : M MqttClient :=
  call (EvSetupMqttClient e) (setup_mqtt_client_returns w e).

Definition log_system_models (w : World) (force : bool) : M LoadedModels :=
  call (EvLogSystemModels force) (log_system_models_returns w force).

Definition connect_to_mlflow (w : World) (s : AppSettings) : M unit :=
  call (EvConnectToMlflow s) (connect_to_mlflow_returns w s).

Definition os_write (w : World) (fd : Z) (data : list Byte.byte) : M Z :=
  call (EvOsWrite fd data) (os_write_returns w fd data).

Definition os_close (w : World) (fd : Z) : M unit :=
  call (EvOsClose fd) (os_close_returns w fd).

Definition yield_ (w : World) (st : LifespanState) : M unit :=
  call (EvYield st) (yield_returns w st).

Definition task_cancel (t : Task) : M unit := emit (EvTaskCancel t).

Definition task_await (w : World) (t : Task) : M unit :=
  call (EvTaskAwait t) (task_await_returns w t).

Definition engine_dispose (w : World) (e : Engine) : M unit :=
  call (EvEngineDispose e) (engine_dispose_returns w e).

(** ** [main.py] *)

(** [write_healthcheck_file(settings)] *)
Definition write_healthcheck_file (w : World) (settings : AppSettings) : M unit :=
  let notification_fd := notify_fd settings in
  if py_bool notification_fd then
    fd <- lift (py_int notification_fd) ;;
    _ <- os_write w fd newline ;;
    fd' <- lift (py_int notification_fd) ;;
    os_close w fd'
  else ret tt.

(** [@lru_cache] on a function of no argument: a hit returns the cached
    value; a miss runs the function and caches what it returns, and caches
    nothing when it raises. *)
Definition lru_cache (f : M AppSettings) : M AppSettings :=
  c <- get_cache ;;
  match c with
  | Some v => ret v
  | None =>
      v <- f ;;
      put_cache (Some v) ;;
      ret v
  end.

(** [get_settings()] *)
Definition get_settings (w : World) : M AppSettings :=
  lru_cache (AppSettings_new w).

(** [poll_registry(10.0)]: the delay, in seconds. *)
Definition poll_delay : Z := 10.

Definition unknown_store_type (t : string) : string :=
  String.append "unknown store type: " t.

Definition unknown_events_type (t : string) : string :=
  String.append "unknown events type: " t.

(** [lifespan(app)], from its entry to its exit through the [yield]. *)
Definition lifespan (w : World) : M unit :=
  app_settings <- get_settings w ;;
  logger_info "Starting mindctrl server with settings:" ;;
  logger_info_dump app_settings ;;
  _ <- create_task (poll_registry poll_delay) ;;
  let state_ring_buffer := new_state_ring_buffer in
  logger_info "Setting up DB" ;;
  (if negb (String.eqb (store_type (store app_settings)) "psql")
   then raise (ValueError (unknown_store_type (store_type (store app_settings))))
   else ret tt) ;;
  engine <- setup_db w (store app_settings) ;;
  let insert_summary_partial :=
    mkPartial engine (include_challenger_models app_settings) in
  logger_info "Setting up MQTT" ;;
  (if negb (String.eqb (events_type (events app_settings)) "mqtt")
   then raise (ValueError (unknown_events_type (events_type (events app_settings))))
   else ret tt) ;;
  mqtt_client <- setup_mqtt_client w (events app_settings) ;;
  logger_info "Starting MQTT listener" ;;
  mqtt_listener_task <-
    create_task (listen_to_mqtt mqtt_client state_ring_buffer insert_summary_partial) ;;
  logger_info "Logging models" ;;
  loaded_models <- log_system_models w (force_publish_models app_settings) ;;
  connect_to_mlflow w app_settings ;;
  write_healthcheck_file w app_settings ;;
  logger_info "Finished server setup" ;;
  yield_ w (mkLifespanState state_ring_buffer loaded_models engine) ;;
  task_cancel mqtt_listener_task ;;
  try_except_CancelledError (task_await w mqtt_listener_task) (ret tt) ;;
  engine_dispose w engine.

(** ** Reading a trace *)

Definition is_poller_task (e : Event) : bool :=
  match e with EvCreateTask (poll_registry _) => true | _ => false end.

Definition is_listener_task (e : Event) : bool :=
  match e with EvCreateTask (listen_to_mqtt _ _ _) => true | _ => false end.

Definition is_create_task (e : Event) : bool :=
  match e with EvCreateTask _ => true | _ => false end.

Definition is_setup_db (e : Event) : bool :=
  match e with EvSetupDb _ _ => true | _ => false end.

Definition is_setup_mqtt_client (e : Event) : bool :=
  match e with EvSetupMqttClient _ _ => true | _ => false end.

Definition is_os_write (e : Event) : bool :=
  match e with EvOsWrite _ _ _ => true | _ => false end.

Definition is_os_close (e : Event) : bool :=
  match e with EvOsClose _ _ => true | _ => false end.

Definition is_yield (e : Event) : bool :=
  match e with EvYield _ _ => true | _ => false end.

Definition is_task_cancel (e : Event) : bool :=
  match e with EvTaskCancel _ => true | _ => false end.

Definition is_task_await (e : Event) : bool :=
  match e with EvTaskAwait _ _ => true | _ => false end.

Definition is_engine_dispose (e : Event) : bool :=
  match e with EvEngineDispose _ _ => true | _ => false end.

(** A storage handle is acquired when [setup_db] returns an engine. *)
Definition is_storage_acquired (e : Event) : bool :=
  match e with EvSetupDb _ (inr _) => true | _ => false end.

(** A settings value is constructed when [AppSettings()] returns. *)
Definition is_settings_constructed (e : Event) : bool :=
  match e with EvAppSettings (inr _) => true | _ => false end.

(** Whether the call that an event records raised. *)
Definition event_raised (e : Event) : bool :=
  match e with
  | EvAppSettings (inl _)
  | EvSetupDb _ (inl _)
  | EvSetupMqttClient _ (inl _)
  | EvLogSystemModels _ (inl _)
  | EvConnectToMlflow _ (inl _)
  | EvOsWrite _ _ (inl _)
  | EvOsClose _ (inl _)
  | EvYield _ (inl _)
  | EvTaskAwait _ (inl _)
  | EvEngineDispose _ (inl _) => true
  | _ => false
  end.

Definition occurs (p : Event -> bool) (tr : list Event) : bool := existsb p tr.

Definition count (p : Event -> bool) (tr : list Event) : nat :=
  length (filter p tr).

(** The position of the first event that satisfies [p]. *)
Fixpoint position (p : Event -> bool) (tr : list Event) : option nat :=
  match tr with
  | [] => None
  | e :: tr' =>
      if p e then Some 0
      else match position p tr' with
           | Some n => Some (S n)
           | None => None
           end
  end.

(** The events before the first event that satisfies [p]. *)
Fixpoint events_before (p : Event -> bool) (tr : list Event) : list Event :=
  match tr with
  | [] => []
  | e :: tr' => if p e then [] else e :: events_before p tr'
  end.

(** The events after the first event that satisfies [p]. *)
Fixpoint events_after (p : Event -> bool) (tr : list Event) : list Event :=
  match tr with
  | [] => []
  | e :: tr' => if p e then tr' else events_after p tr'
  end.

(** Whether [lifespan] got past its startup: it reached the [yield]. *)
Definition started (tr : list Event) : bool := occurs is_yield tr.

(** ** Calling [get_settings] again and again *)

(** One call of [get_settings] per world of the list, each observed with its
    outcome; the cache is carried from call to call. *)
Fixpoint get_settings_calls (ws : list World) : M (list (Result AppSettings)) :=
  match ws with
  | [] => ret []
  | w :: ws' =>
      r <- attempt (get_settings w) ;;
      rs <- get_settings_calls ws' ;;
      ret (r :: rs)
  end.

Definition is_log_system_models (e : Event) : bool :=
  match e with EvLogSystemModels _ _ => true | _ => false end.

Definition is_connect_to_mlflow (e : Event) : bool :=
  match e with EvConnectToMlflow _ _ => true | _ => false end.

(** The events of the readiness signal. *)
Definition is_readiness_io (e : Event) : bool :=
  is_os_write e || is_os_close e.

(** ** Sample worlds *)

Definition psql_store : StoreSettings := mkStoreSettings "psql" "postgresql://db/mindctrl".
Definition sqlite_store : StoreSettings := mkStoreSettings "sqlite" "file:mindctrl.db".
Definition mqtt_events : EventsSettings := mkEventsSettings "mqtt" "mqtt://broker:1883".
Definition kafka_events : EventsSettings := mkEventsSettings "kafka" "kafka://broker:9092".

(** The supported kinds, and the readiness signal on descriptor 3. *)
Definition good_settings : AppSettings :=
  mkAppSettings psql_store mqtt_events false (Some 3%Z) true.

(** An unsupported events kind. *)
Definition kafka_settings : AppSettings :=
  mkAppSettings psql_store kafka_events false (Some 3%Z) true.

(** An unsupported store kind. *)
Definition sqlite_settings : AppSettings :=
  mkAppSettings sqlite_store mqtt_events false (Some 3%Z) true.

(** The readiness signal on descriptor 0. *)
Definition fd0_settings : AppSettings :=
  mkAppSettings psql_store mqtt_events false (Some 0%Z) true.

(** A world where every collaborator answers, the served application ends
    normally and the cancelled listener ends with [CancelledError]. *)
Definition world_of (r : Result AppSettings) : World :=
  {| AppSettings_returns := r;
     setup_db_returns := fun _ => inr 1;
     setup_mqtt_client_returns := fun _ => inr 2;
     log_system_models_returns := fun _ => inr ["chat"; "embeddings"];
     connect_to_mlflow_returns := fun _ => inr tt;
     os_write_returns := fun _ data => inr (Z.of_nat (length data));
     os_close_returns := fun _ => inr tt;
     yield_returns := fun _ => inr tt;
     task_await_returns := fun _ => inl CancelledError;
     engine_dispose_returns := fun _ => inr tt |}.

Definition good_world : World := world_of (inr good_settings).
Definition kafka_world : World := world_of (inr kafka_settings).
Definition sqlite_world : World := world_of (inr sqlite_settings).
Definition fd0_world : World := world_of (inr fd0_settings).

(** A world where the database cannot be reached. *)
Definition db_down_world : World :=
  {| AppSettings_returns := inr good_settings;
     setup_db_returns := fun _ => inl (OtherError "ConnectionRefusedError");
     setup_mqtt_client_returns := fun _ => inr 2;
     log_system_models_returns := fun _ => inr ["chat"; "embeddings"];
     connect_to_mlflow_returns := fun _ => inr tt;
     os_write_returns := fun _ data => inr (Z.of_nat (length data));
     os_close_returns := fun _ => inr tt;
     yield_returns := fun _ => inr tt;
     task_await_returns := fun _ => inl CancelledError;
     engine_dispose_returns := fun _ => inr tt |}.

(** A world where [AppSettings()] fails its validation. *)
Definition invalid_world : World :=
  world_of (inl (OtherError "ValidationError")).

(** The state that a run in [world_of] yields. *)
Definition sample_state : LifespanState :=
  mkLifespanState new_state_ring_buffer ["chat"; "embeddings"] 1.

(** Twenty-one records, [A] to [U]; and a further one. *)
Definition sample_records : list EventRecord :=
  map (fun n => [("event", String (ascii_of_nat (65 + n)) "")]) (seq 0 21).

Definition record_V : EventRecord := [("event", "V")].

(** Four calls of [get_settings]: the first fails its validation, and the
    environment changes between the later ones. *)
Definition sample_calls : list World :=
  [invalid_world; good_world; sqlite_world; kafka_world].

(** What a run of calls keeps true, whatever the cache was at its start. *)
Definition calls_inv (ws : list World) (c : Cache)
    (r : Run (list (Result AppSettings))) : Prop :=
  exists rs,
    outcome r = inr rs /\
    length rs = length ws /\
    (forall i a, nth_error rs i = Some (inr a) ->
       cache r = Some a /\
       forall j, i <= j -> j < length rs -> nth_error rs j = Some (inr a)) /\
    (forall a, c = Some a ->
       trace r = [] /\ cache r = Some a /\
       forall j, j < length rs -> nth_error rs j = Some (inr a)) /\
    (c = None -> cache r = None -> forall j a, nth_error rs j <> Some (inr a)) /\
    count is_settings_constructed (trace r) <= 1 /\
    events_after is_settings_constructed (trace r) = [].

(** ** Further readers and sample worlds *)

Definition is_app_settings_call (e : Event) : bool :=
  match e with EvAppSettings _ => true | _ => false end.

(** Whether a call of [get_settings] raised. *)
Definition call_raised (r : Result AppSettings) : bool :=
  match r with inl _ => true | inr _ => false end.

(** The calls of a sequence that raised. *)
Definition failures (rs : list (Result AppSettings)) : nat :=
  length (filter call_raised rs).

(** A world with the supported kinds and descriptor 3, where the answers of
    [log_system_models], [os.write], [os.close], the served application and
    the await of the listener are as given. *)
Definition world_with (models : Result LoadedModels) (written : Result Z)
    (closed served awaited : Result unit) : World :=
  {| AppSettings_returns := inr good_settings;
     setup_db_returns := fun _ => inr 1;
     setup_mqtt_client_returns := fun _ => inr 2;
     log_system_models_returns := fun _ => models;
     connect_to_mlflow_returns := fun _ => inr tt;
     os_write_returns := fun _ _ => written;
     os_close_returns := fun _ => closed;
     yield_returns := fun _ => served;
     task_await_returns := fun _ => awaited;
     engine_dispose_returns := fun _ => inr tt |}.

Definition sample_models : Result LoadedModels := inr ["chat"; "embeddings"].

(** The model registry cannot be reached. *)
Definition models_down_world : World :=
  world_with (inl (OtherError "MlflowException")) (inr 1%Z) (inr tt) (inr tt)
    (inl CancelledError).

(** The notification descriptor is not open. *)
Definition write_fails_world : World :=
  world_with sample_models (inl (OtherError "OSError")) (inr tt) (inr tt)
    (inl CancelledError).

(** The byte is written and the close fails. *)
Definition close_fails_world : World :=
  world_with sample_models (inr 1%Z) (inl (OtherError "OSError")) (inr tt)
    (inl CancelledError).

(** The served application ends with an exception. *)
Definition serving_fails_world : World :=
  world_with sample_models (inr 1%Z) (inr tt) (inl (OtherError "RuntimeError"))
    (inl CancelledError).

(** The listener task had ended with an exception of its own. *)
Definition listener_crashed_world : World :=
  world_with sample_models (inr 1%Z) (inr tt) (inr tt)
    (inl (OtherError "MqttError")).

(** The listener task of the sample worlds. *)
Definition sample_listener_task : Task :=
  mkTask (listen_to_mqtt 2 new_state_ring_buffer (mkPartial 1 true)).

(** A window that already holds three records. *)
Definition used_window : Deque.deque EventRecord :=
  Deque.appends new_state_ring_buffer
    [[("event", "x")]; [("event", "y")]; [("event", "z")]].

(** The steps of a run that acquire, use or release something outside the
    process: every call of a collaborator or of the operating system, the
    creation of the listener task, the [yield], and the steps of shutdown.
    The logs, the construction of the settings and the creation of the
    registry poller task are the others. *)
Definition touches_resource (e : Event) : bool :=
  match e with
  | EvAppSettings _ | EvLogInfo _ | EvLogInfoDump _ => false
  | EvCreateTask (poll_registry _) => false
  | _ => true
  end.

(** The listener ends with [CancelledError] and the dispose of the engine
    fails. *)
Definition dispose_fails_world : World :=
  {| AppSettings_returns := inr good_settings;
     setup_db_returns := fun _ => inr 1;
     setup_mqtt_client_returns := fun _ => inr 2;
     log_system_models_returns := fun _ => sample_models;
     connect_to_mlflow_returns := fun _ => inr tt;
     os_write_returns := fun _ _ => inr 1%Z;
     os_close_returns := fun _ => inr tt;
     yield_returns := fun _ => inr tt;
     task_await_returns := fun _ => inl CancelledError;
     engine_dispose_returns := fun _ => inl (OtherError "DBAPIError") |}.

(** A world where [setup_db] returns the engine 7 and [setup_mqtt_client]
    the client 9. *)
Definition other_handles_world : World :=
  {| AppSettings_returns := inr good_settings;
     setup_db_returns := fun _ => inr 7;
     setup_mqtt_client_returns := fun _ => inr 9;
     log_system_models_returns := fun _ => sample_models;
     connect_to_mlflow_returns := fun _ => inr tt;
     os_write_returns := fun _ _ => inr 1%Z;
     os_close_returns := fun _ => inr tt;
     yield_returns := fun _ => inr tt;
     task_await_returns := fun _ => inl CancelledError;
     engine_dispose_returns := fun _ => inr tt |}.

Definition other_handles_state : LifespanState :=
  mkLifespanState new_state_ring_buffer ["chat"; "embeddings"] 7.

(** ** Properties of the deque *)

Section DequeFacts.
Context {A : Type}.
Implicit Types (d : Deque.deque A) (rs : list A) (x : A).

Lemma appends_snoc d rs x :
  Deque.appends d (rs ++ [x]) = Deque.append (Deque.appends d rs) x.
Proof. unfold Deque.appends. now rewrite fold_left_app. Qed.

Lemma appends_maxlen d rs :
  Deque.maxlen (Deque.appends d rs) = Deque.maxlen d.
Proof.
  induction rs as [|x rs IH] using rev_ind; [reflexivity|].
  now rewrite appends_snoc.
Qed.

Lemma tl_skipn (k : nat) (l : list A) : tl (skipn k l) = skipn (S k) l.
Proof.
  revert l; induction k as [|k IH]; intros [|a l]; try reflexivity.
  exact (IH l).
Qed.

Lemma tl_app_nonempty (l : list A) x : l <> [] -> tl (l ++ [x]) = tl l ++ [x].
Proof. destruct l; [congruence | reflexivity]. Qed.

(** After any run of appends to a fresh deque of bound [c], the deque holds
    the last [c] of them. *)
Lemma appends_new_items (c : nat) rs :
  Deque.items (Deque.appends (Deque.new (Some c)) rs) = lastn c rs.
Proof.
  induction rs as [|x rs IH] using rev_ind; [reflexivity|].
  rewrite appends_snoc. unfold Deque.append.
  rewrite appends_maxlen, IH. simpl.
  unfold lastn, Deque.popleft_items.
  rewrite !length_app, length_skipn. simpl.
  destruct (Nat.ltb_spec c (length rs - (length rs - c) + 1)) as [Hlt|Hge].
  - assert (Hc : c <= length rs) by lia.
    destruct (Nat.eq_dec c 0) as [->|Hpos].
    + replace (length rs - 0) with (length rs) by lia.
      rewrite skipn_all. simpl.
      rewrite skipn_all2; [reflexivity | rewrite length_app; simpl; lia].
    + rewrite tl_app_nonempty.
      * rewrite tl_skipn.
        replace (length rs + 1 - c) with (S (length rs - c)) by lia.
        rewrite skipn_app.
        replace (S (length rs - c) - length rs) with 0 by lia.
        reflexivity.
      * intro E. apply (f_equal (@length A)) in E.
        rewrite length_skipn in E. simpl in E. lia.
  - replace (length rs - c) with 0 by lia.
    replace (length rs + 1 - c) with 0 by lia.
    reflexivity.
Qed.

Lemma lastn_length (c : nat) rs : length (lastn c rs) = Nat.min (length rs) c.
Proof. unfold lastn. rewrite length_skipn. lia. Qed.

End DequeFacts.

(** C1. For every sequence [rs] of appends to the ring buffer that [lifespan]
    creates ([deque(maxlen=20)]), a snapshot has length [min (length rs) 20]
    and is the last [min (length rs) 20] records of [rs] in append order,
    oldest first; and an append to a window that holds 20 records drops
    exactly its oldest record and keeps the others in their order, with the
    new record last. *)
Theorem C1_window_keeps_last_20 (rs : list EventRecord) :
  let w := Deque.appends new_state_ring_buffer rs in
  let n := Nat.min (length rs) state_ring_buffer_maxlen in
  state_ring_buffer_maxlen = 20 /\
  Deque.len w = n /\
  Deque.snapshot w = lastn n rs /\
  (forall x oldest rest,
      Deque.snapshot w = oldest :: rest ->
      Deque.len w = state_ring_buffer_maxlen ->
      Deque.snapshot (Deque.append w x) = rest ++ [x] /\
      Deque.len (Deque.append w x) = state_ring_buffer_maxlen).
Proof.
  intros w n.
  assert (Hitems : Deque.items w = lastn state_ring_buffer_maxlen rs)
    by apply appends_new_items.
  assert (Hn : lastn n rs = lastn state_ring_buffer_maxlen rs).
  { unfold lastn, n. f_equal. lia. }
  split; [reflexivity|]. split; [|split].
  - unfold Deque.len. rewrite Hitems. apply lastn_length.
  - unfold Deque.snapshot. now rewrite Hn.
  - intros x oldest rest Hsnap Hlen.
    unfold Deque.snapshot, Deque.len, Deque.append in *.
    assert (Hm : Deque.maxlen w = Some state_ring_buffer_maxlen)
      by apply appends_maxlen.
    rewrite Hm. simpl Deque.items. simpl Deque.needs_trim.
    rewrite length_app, Hlen. simpl length.
    replace (state_ring_buffer_maxlen <? state_ring_buffer_maxlen + 1) with true
      by (symmetry; apply Nat.ltb_lt; lia).
    rewrite Hsnap in *. simpl. split; [reflexivity|].
    rewrite length_app. simpl in *. lia.
Qed.

Lemma C1_window_witness :
  Deque.len (Deque.appends new_state_ring_buffer sample_records) = 20 /\
  Deque.snapshot (Deque.appends new_state_ring_buffer sample_records) =
    lastn 20 sample_records /\
  Deque.snapshot
    (Deque.append (Deque.appends new_state_ring_buffer sample_records) record_V) =
    tl (Deque.snapshot (Deque.appends new_state_ring_buffer sample_records))
      ++ [record_V].
Proof.
  destruct (C1_window_keeps_last_20 sample_records) as (_ & Hlen & Hsnap & Hfull).
  split; [exact Hlen|]. split; [exact Hsnap|].
  destruct (Hfull record_V [("event", "B")]
              (tl (Deque.snapshot (Deque.appends new_state_ring_buffer sample_records))))
    as [H _]; [reflexivity | reflexivity | exact H].
Defined.

(** ** Symbolic runs of [lifespan] *)

Ltac destruct_match :=
  match goal with
  | |- context [match ?x with _ => _ end] =>
      lazymatch x with
      | context [match _ with _ => _ end] => fail
      | _ => destruct x eqn:?
      end
  | H : context [match ?x with _ => _ end] |- _ =>
      lazymatch x with
      | context [match _ with _ => _ end] => fail
      | _ => destruct x eqn:?
      end
  end.

Ltac run_step :=
  cbv beta iota zeta delta
      [lifespan get_settings lru_cache AppSettings_new write_healthcheck_file
       bind ret raise emit lift call get_cache put_cache after
       try_except_CancelledError attempt
       logger_info logger_info_dump create_task setup_db setup_mqtt_client
       log_system_models connect_to_mlflow os_write os_close yield_
       task_cancel task_await engine_dispose py_int py_bool
       trace cache outcome negb app] in *.

(** Every path of a run, with the answers of the world as hypotheses. *)
Ltac run_cases := repeat (run_step; destruct_match).

Ltac bool_facts :=
  repeat match goal with
    | H : String.eqb _ _ = true |- _ => apply String.eqb_eq in H
    | H : String.eqb _ _ = false |- _ => apply String.eqb_neq in H
    | H : Z.eqb _ _ = true |- _ => apply Z.eqb_eq in H
    | H : Z.eqb _ _ = false |- _ => apply Z.eqb_neq in H
    | u : unit |- _ => destruct u
    end.

Ltac in_cases H :=
  cbv [In] in H;
  repeat match type of H with
    | _ \/ _ => destruct H as [H|H]
    | False => destruct H
    end;
  try discriminate H.

Ltac solve_in := cbv [In]; repeat (first [left; reflexivity | right]).

Ltac use_answers :=
  repeat match goal with
    | H : ?f = inr _, H' : ?f = inr _ |- _ => rewrite H in H'; injection H' as <-
    | H : ?f = inr _, H' : ?f = inl _ |- _ => rewrite H in H'; discriminate H'
    | H : ?f = inl _, H' : ?f = inr _ |- _ => rewrite H in H'; discriminate H'
    end.

(** ** Reading a trace: the first event of a kind *)

Lemma events_before_after (p : Event -> bool) (tr : list Event) :
  occurs p tr = true ->
  exists e,
    p e = true /\
    tr = events_before p tr ++ e :: events_after p tr /\
    occurs p (events_before p tr) = false.
Proof.
  unfold occurs. induction tr as [|e tr IH]; simpl; [discriminate|].
  destruct (p e) eqn:He.
  - intros _. exists e. repeat split. exact He.
  - simpl. intros H. destruct (IH H) as (e' & He' & Htr & Hb).
    exists e'. rewrite He. repeat split; [exact He' | now f_equal | exact Hb].
Qed.

Lemma position_before (p : Event -> bool) (tr : list Event) (n : nat) :
  position p tr = Some n -> length (events_before p tr) = n.
Proof.
  revert n. induction tr as [|e tr IH]; simpl; [discriminate|].
  destruct (p e); intros n H.
  - now injection H as <-.
  - destruct (position p tr) as [m|]; [|discriminate].
    injection H as <-. simpl. f_equal. now apply IH.
Qed.

(** ** The configuration errors *)

(** C2, as stated, fails in [kafka_world], where the store kind is supported
    and the events kind is not: the unsupported-events-kind error is raised
    when [setup_db] has already returned the storage engine. *)
Lemma C2_events_error_raised_after_storage_acquired :
  outcome (lifespan kafka_world None) =
    inl (ValueError "unknown events type: kafka") /\
  In (EvSetupDb psql_store (inr 1)) (trace (lifespan kafka_world None)) /\
  occurs is_storage_acquired (trace (lifespan kafka_world None)) = true.
Proof. vm_compute. repeat split. solve_in. Qed.

(** C2, amended. The unsupported-store-kind error is raised before any
    resource is acquired: the run up to it is the settings, two logs, the
    creation of the registry poller task and one more log. The
    unsupported-events-kind error is raised before the event-bus client is
    constructed and before any resource other than the storage engine is
    acquired: the run up to it is the same steps, then the call of
    [setup_db] that returned the engine, then one log. *)
Theorem C2_config_errors_and_resources
    (w : World) (c : Cache) (s : AppSettings) :
  outcome (get_settings w c) = inr s ->
  let r := lifespan w c in
  (store_type (store s) <> "psql" ->
     outcome r = inl (ValueError (unknown_store_type (store_type (store s)))) /\
     trace r =
       trace (get_settings w c) ++
       [EvLogInfo "Starting mindctrl server with settings:";
        EvLogInfoDump s;
        EvCreateTask (poll_registry poll_delay);
        EvLogInfo "Setting up DB"] /\
     filter touches_resource (trace r) = []) /\
  (forall eng,
     store_type (store s) = "psql" ->
     setup_db_returns w (store s) = inr eng ->
     events_type (events s) <> "mqtt" ->
     outcome r = inl (ValueError (unknown_events_type (events_type (events s)))) /\
     trace r =
       trace (get_settings w c) ++
       [EvLogInfo "Starting mindctrl server with settings:";
        EvLogInfoDump s;
        EvCreateTask (poll_registry poll_delay);
        EvLogInfo "Setting up DB";
        EvSetupDb (store s) (inr eng);
        EvLogInfo "Setting up MQTT"] /\
     filter touches_resource (trace r) = [EvSetupDb (store s) (inr eng)]).
Proof.
  intros Hs r; subst r. split.
  - intros Hstore. run_cases; bool_facts; try congruence.
    all: injection Hs as <-; repeat split; reflexivity.
  - intros eng Hstore Hdb Hev. run_cases; bool_facts; try congruence.
    all: injection Hs as <-; use_answers.
    all: repeat split; reflexivity.
Qed.

Lemma C2_config_errors_witness :
  (outcome (lifespan sqlite_world None) =
     inl (ValueError (unknown_store_type "sqlite")) /\
   trace (lifespan sqlite_world None) =
     trace (get_settings sqlite_world None) ++
     [EvLogInfo "Starting mindctrl server with settings:";
      EvLogInfoDump sqlite_settings;
      EvCreateTask (poll_registry poll_delay);
      EvLogInfo "Setting up DB"] /\
   filter touches_resource (trace (lifespan sqlite_world None)) = []) /\
  (outcome (lifespan kafka_world None) =
     inl (ValueError (unknown_events_type "kafka")) /\
   trace (lifespan kafka_world None) =
     trace (get_settings kafka_world None) ++
     [EvLogInfo "Starting mindctrl server with settings:";
      EvLogInfoDump kafka_settings;
      EvCreateTask (poll_registry poll_delay);
      EvLogInfo "Setting up DB";
      EvSetupDb psql_store (inr 1);
      EvLogInfo "Setting up MQTT"] /\
   filter touches_resource (trace (lifespan kafka_world None)) =
     [EvSetupDb psql_store (inr 1)]).
Proof.
  split.
  - apply (C2_config_errors_and_resources sqlite_world None sqlite_settings).
    + reflexivity.
    + discriminate.
  - apply (C2_config_errors_and_resources kafka_world None kafka_settings).
    + reflexivity.
    + reflexivity.
    + reflexivity.
    + discriminate.
Defined.

(** C3, as stated, fails in [sqlite_world], where the store kind is not
    supported: when the error is raised, a background task, the registry
    poller, has been created. *)
Lemma C3_store_error_raised_after_poller_task :
  outcome (lifespan sqlite_world None) =
    inl (ValueError "unknown store type: sqlite") /\
  In (EvCreateTask (poll_registry 10)) (trace (lifespan sqlite_world None)) /\
  occurs is_create_task (trace (lifespan sqlite_world None)) = true.
Proof. vm_compute. repeat split. solve_in. Qed.

(** C3, amended. With an unsupported store kind, or when [setup_db] raises,
    [lifespan] raises; the one task created by then is the registry poller,
    the listener task is not created, nothing is written to the notification
    descriptor and no state is yielded. *)
Theorem C3_storage_failure_stops_startup
    (w : World) (c : Cache) (s : AppSettings) :
  outcome (get_settings w c) = inr s ->
  store_type (store s) <> "psql" \/
    (exists e, setup_db_returns w (store s) = inl e) ->
  let r := lifespan w c in
  (exists e, outcome r = inl e) /\
  filter is_create_task (trace r) = [EvCreateTask (poll_registry poll_delay)] /\
  occurs is_listener_task (trace r) = false /\
  occurs is_os_write (trace r) = false /\
  occurs is_yield (trace r) = false.
Proof.
  intros Hs [Hstore | [e Hdb]] r; subst r.
  - run_cases; bool_facts; try congruence.
    all: repeat split; try reflexivity; eexists; reflexivity.
  - run_cases; bool_facts; try congruence.
    all: try (injection Hs as <-; use_answers).
    all: repeat split; try reflexivity; eexists; reflexivity.
Qed.

Lemma C3_storage_failure_witness :
  ((exists e, outcome (lifespan sqlite_world None) = inl e) /\
   filter is_create_task (trace (lifespan sqlite_world None)) =
     [EvCreateTask (poll_registry poll_delay)] /\
   occurs is_listener_task (trace (lifespan sqlite_world None)) = false /\
   occurs is_os_write (trace (lifespan sqlite_world None)) = false /\
   occurs is_yield (trace (lifespan sqlite_world None)) = false) /\
  ((exists e, outcome (lifespan db_down_world None) = inl e) /\
   filter is_create_task (trace (lifespan db_down_world None)) =
     [EvCreateTask (poll_registry poll_delay)] /\
   occurs is_listener_task (trace (lifespan db_down_world None)) = false /\
   occurs is_os_write (trace (lifespan db_down_world None)) = false /\
   occurs is_yield (trace (lifespan db_down_world None)) = false).
Proof.
  split.
  - apply (C3_storage_failure_stops_startup sqlite_world None sqlite_settings).
    + reflexivity.
    + left. discriminate.
  - apply (C3_storage_failure_stops_startup db_down_world None good_settings).
    + reflexivity.
    + right. exists (OtherError "ConnectionRefusedError"). reflexivity.
Defined.

(** ** The order of startup *)

(** C4, as stated, fails in [good_world], where startup succeeds: the
    registry poller task is created (fourth event of the run) before the
    storage engine is acquired (sixth event). *)
Lemma C4_poller_started_before_storage :
  started (trace (lifespan good_world None)) = true /\
  position is_poller_task (trace (lifespan good_world None)) = Some 3 /\
  position is_storage_acquired (trace (lifespan good_world None)) = Some 5.
Proof. vm_compute. repeat split. Qed.

(** C4, amended. On every run of [lifespan] that reaches its [yield], the
    registry poller task is created first, then the storage engine is
    acquired, then the listener task is created, and only then is the state
    yielded to the serving layer; each of the four happens once. *)
Theorem C4_startup_order (w : World) (c : Cache) :
  let tr := trace (lifespan w c) in
  started tr = true ->
  exists i j k l,
    position is_poller_task tr = Some i /\
    position is_storage_acquired tr = Some j /\
    position is_listener_task tr = Some k /\
    position is_yield tr = Some l /\
    i < j /\ j < k /\ k < l /\
    count is_poller_task tr = 1 /\
    count is_setup_db tr = 1 /\
    count is_listener_task tr = 1 /\
    count is_yield tr = 1.
Proof.
  intros tr; subst tr. run_cases; intros H; try discriminate H.
  all: do 4 eexists; repeat split; try reflexivity; lia.
Qed.

Lemma C4_startup_order_witness :
  exists i j k l,
    position is_poller_task (trace (lifespan good_world None)) = Some i /\
    position is_storage_acquired (trace (lifespan good_world None)) = Some j /\
    position is_listener_task (trace (lifespan good_world None)) = Some k /\
    position is_yield (trace (lifespan good_world None)) = Some l /\
    i < j /\ j < k /\ k < l /\
    count is_poller_task (trace (lifespan good_world None)) = 1 /\
    count is_setup_db (trace (lifespan good_world None)) = 1 /\
    count is_listener_task (trace (lifespan good_world None)) = 1 /\
    count is_yield (trace (lifespan good_world None)) = 1.
Proof. apply (C4_startup_order good_world None). reflexivity. Defined.
(** ** Shutdown *)

(** C5, as stated, fails in two worlds where startup succeeds and shutdown
    begins. In [listener_crashed_world] the listener task had ended with an
    exception of its own: the await raises it, [lifespan] ends with it, and
    the engine is not disposed. In [dispose_fails_world] the await ends with
    [CancelledError], the expected outcome, and [lifespan] still raises: the
    exception of the dispose. *)
Lemma C5_shutdown_can_raise_and_skip_dispose :
  (In (EvYield sample_state (inr tt)) (trace (lifespan listener_crashed_world None)) /\
   outcome (lifespan listener_crashed_world None) = inl (OtherError "MqttError") /\
   occurs is_engine_dispose (trace (lifespan listener_crashed_world None)) = false) /\
  (In (EvYield sample_state (inr tt)) (trace (lifespan dispose_fails_world None)) /\
   In (EvTaskAwait sample_listener_task (inl CancelledError))
      (trace (lifespan dispose_fails_world None)) /\
   outcome (lifespan dispose_fails_world None) = inl (OtherError "DBAPIError")).
Proof. vm_compute. repeat split; solve_in. Qed.

(** C5, amended. On every run where startup succeeded and the generator is
    resumed for shutdown, [lifespan] cancels the listener task it created,
    the one bound to the engine that [setup_db] returned, and then awaits
    it; no engine is disposed before that await. When the await ends with
    [CancelledError] (or returns), the exception is not propagated: the
    next and last step is the dispose of the engine that [setup_db]
    returned, which is the engine of the yielded state, and the run ends as
    that dispose ends, so without raising when the dispose returns. *)
Theorem C5_shutdown_cancels_awaits_then_disposes
    (w : World) (c : Cache) (s : AppSettings) (st : LifespanState) :
  outcome (get_settings w c) = inr s ->
  let r := lifespan w c in
  In (EvYield st (inr tt)) (trace r) ->
  exists eng client buf,
    let t :=
      mkTask (listen_to_mqtt client buf
                (mkPartial eng (include_challenger_models s))) in
    setup_db_returns w (store s) = inr eng /\
    setup_mqtt_client_returns w (events s) = inr client /\
    st_database_engine st = eng /\
    In (EvSetupDb (store s) (inr eng)) (events_before is_yield (trace r)) /\
    In (EvCreateTask (task_coro t)) (events_before is_yield (trace r)) /\
    count is_listener_task (trace r) = 1 /\
    occurs is_engine_dispose (events_before is_task_await (trace r)) = false /\
    (exists post,
       events_after is_yield (trace r) =
         EvTaskCancel t :: EvTaskAwait t (task_await_returns w t) :: post) /\
    (task_await_returns w t = inl CancelledError \/
     task_await_returns w t = inr tt ->
       events_after is_yield (trace r) =
         [EvTaskCancel t; EvTaskAwait t (task_await_returns w t);
          EvEngineDispose eng (engine_dispose_returns w eng)] /\
       outcome r = engine_dispose_returns w eng /\
       (engine_dispose_returns w eng = inr tt -> outcome r = inr tt)).
Proof.
  intros Hs r Hy; subst r. run_cases; bool_facts; in_cases Hy.
  all: injection Hs as <-; injection Hy as <-.
  all: cbv [st_database_engine].
  all: match goal with
       | H : task_await_returns _ {| task_coro := listen_to_mqtt ?m ?b ?p |} = _
         |- _ =>
           match p with
           | {| partial_engine := ?e |} => exists e, m, b
           end
       end.
  all: cbv zeta.
  all: repeat match goal with
         | H : ?f = _ |- context [?f] => rewrite H
         end.
  all: split; [reflexivity|]; split; [reflexivity|]; split; [reflexivity|].
  all: split; [solve_in|]; split; [solve_in|].
  all: split; [reflexivity|]; split; [reflexivity|].
  all: split; [eexists; reflexivity|].
  all: intros [Hc|Hc]; try discriminate Hc; try (injection Hc as ->).
  all: repeat split; try reflexivity; try congruence.
Qed.

Lemma C5_shutdown_witness :
  In (EvYield other_handles_state (inr tt)) (trace (lifespan other_handles_world None)) /\
  events_after is_yield (trace (lifespan other_handles_world None)) =
    [EvTaskCancel
       (mkTask (listen_to_mqtt 9 new_state_ring_buffer (mkPartial 7 true)));
     EvTaskAwait
       (mkTask (listen_to_mqtt 9 new_state_ring_buffer (mkPartial 7 true)))
       (inl CancelledError);
     EvEngineDispose 7 (inr tt)] /\
  outcome (lifespan other_handles_world None) = inr tt.
Proof.
  assert (Hy : In (EvYield other_handles_state (inr tt))
                 (trace (lifespan other_handles_world None)))
    by (vm_compute; solve_in).
  split; [exact Hy|].
  destruct (C5_shutdown_cancels_awaits_then_disposes other_handles_world None
              good_settings other_handles_state eq_refl Hy)
    as (eng & client & buf & Hdb & Hcl & _ & _ & _ & _ & _ & _ & Hc).
  injection Hdb as <-. injection Hcl as <-.
  destruct Hc as (Hpost & Ho & _); [left; reflexivity|].
  split; [reflexivity | exact Ho].
Defined.

(** ** The readiness signal *)

(** C6, as stated, fails in [fd0_world], where the notification descriptor
    is configured as 0: startup succeeds and nothing is written or closed. *)
Lemma C6_descriptor_0_gets_no_signal :
  notify_fd fd0_settings = Some 0%Z /\
  outcome (get_settings fd0_world None) = inr fd0_settings /\
  started (trace (lifespan fd0_world None)) = true /\
  outcome (lifespan fd0_world None) = inr tt /\
  occurs is_os_write (trace (lifespan fd0_world None)) = false /\
  occurs is_os_close (trace (lifespan fd0_world None)) = false.
Proof. vm_compute. repeat split. Qed.

(** C6, amended. On a run that reaches its [yield], a configured descriptor
    other than 0 gets one write of the one byte [b"\n"] and is then closed,
    and these are the only write and close of the run; with no descriptor
    configured, or with descriptor 0, nothing is written or closed and
    [write_healthcheck_file] returns without raising. In any run, a write is
    preceded by the creation of both tasks and by the calls of [setup_db],
    [setup_mqtt_client], [log_system_models] and [connect_to_mlflow], none
    of which raised, and comes before the [yield]. *)
Theorem C6_readiness_signal (w : World) (c : Cache) (s : AppSettings) :
  outcome (get_settings w c) = inr s ->
  let tr := trace (lifespan w c) in
  newline = [Byte.x0a] /\
  (started tr = true ->
     (forall fd, notify_fd s = Some fd -> fd <> 0%Z ->
        exists n,
          filter is_readiness_io tr =
            [EvOsWrite fd newline (inr n); EvOsClose fd (inr tt)]) /\
     (notify_fd s = None \/ notify_fd s = Some 0%Z ->
        filter is_readiness_io tr = [])) /\
  (occurs is_os_write tr = true ->
     let pre := events_before is_os_write tr in
     occurs event_raised pre = false /\
     occurs is_poller_task pre = true /\
     occurs is_storage_acquired pre = true /\
     occurs is_setup_mqtt_client pre = true /\
     occurs is_listener_task pre = true /\
     occurs is_log_system_models pre = true /\
     occurs is_connect_to_mlflow pre = true /\
     occurs is_yield pre = false) /\
  (notify_fd s = None \/ notify_fd s = Some 0%Z ->
     forall c', write_healthcheck_file w s c' = ret tt c').
Proof.
  intros Hs tr; subst tr. split; [reflexivity|]. split; [|split].
  - intros Hst. split.
    + intros fd Hfd Hnz. run_cases; bool_facts; try discriminate Hst.
      all: injection Hs as <-; try congruence.
      all: rewrite Hfd in *.
      all: match goal with H : Some _ = Some _ |- _ => injection H as <- end.
      all: eexists; reflexivity.
    + intros Hfd. run_cases; bool_facts; try discriminate Hst; try reflexivity.
      all: injection Hs as <-; destruct Hfd; congruence.
  - run_cases; intros H; try discriminate H.
    all: repeat split; reflexivity.
  - intros Hfd c'. unfold write_healthcheck_file.
    destruct Hfd as [-> | ->]; reflexivity.
Qed.

Lemma C6_readiness_signal_witness :
  started (trace (lifespan good_world None)) = true /\
  exists n,
    filter is_readiness_io (trace (lifespan good_world None)) =
      [EvOsWrite 3 newline (inr n); EvOsClose 3 (inr tt)].
Proof.
  split; [reflexivity|].
  destruct (C6_readiness_signal good_world None good_settings eq_refl)
    as (_ & Hw & _ & _).
  destruct (Hw eq_refl) as (Hfd & _).
  apply (Hfd 3%Z eq_refl). discriminate.
Defined.

(** ** The registry poller *)

(** C7. [lifespan] creates the registry poller task with a delay of 10, and
    creates it once. No run cancels or awaits a poller task: every task that
    is cancelled or awaited is the listener task that the run created, and a
    run that reaches shutdown cancels one task and awaits one task. *)
Theorem C7_poller_is_fire_and_forget (w : World) (c : Cache) :
  let tr := trace (lifespan w c) in
  poll_delay = 10%Z /\
  (forall s, outcome (get_settings w c) = inr s ->
     filter is_poller_task tr = [EvCreateTask (poll_registry poll_delay)]) /\
  (forall d r,
     ~ In (EvTaskCancel (mkTask (poll_registry d))) tr /\
     ~ In (EvTaskAwait (mkTask (poll_registry d)) r) tr) /\
  (forall t,
     In (EvTaskCancel t) tr \/ (exists r, In (EvTaskAwait t r) tr) ->
     is_listener_task (EvCreateTask (task_coro t)) = true /\
     In (EvCreateTask (task_coro t)) tr) /\
  (forall st, In (EvYield st (inr tt)) tr ->
     count is_task_cancel tr = 1 /\ count is_task_await tr = 1).
Proof.
  intros tr; subst tr. split; [reflexivity|]. split; [|split; [|split]].
  - intros s Hs. run_cases; try discriminate Hs; reflexivity.
  - intros d r. run_cases.
    all: split; intros H; in_cases H.
  - intros t Ht. run_cases.
    all: destruct Ht as [H | [r H]]; in_cases H.
    all: injection H as <-; split; [reflexivity | solve_in].
  - intros st H. run_cases; bool_facts; in_cases H.
    all: split; reflexivity.
Qed.

Lemma C7_poller_witness :
  filter is_poller_task (trace (lifespan good_world None)) =
    [EvCreateTask (poll_registry 10)] /\
  count is_task_cancel (trace (lifespan good_world None)) = 1 /\
  count is_task_await (trace (lifespan good_world None)) = 1.
Proof.
  destruct (C7_poller_is_fire_and_forget good_world None) as (_ & Hp & _ & _ & Hy).
  split.
  - exact (Hp good_settings eq_refl).
  - apply (Hy sample_state). vm_compute. solve_in.
Defined.

(** ** The cache of [get_settings] *)

Lemma get_settings_hit (w : World) (a : AppSettings) :
  get_settings w (Some a) = mkRun [] (Some a) (inr a).
Proof. reflexivity. Qed.

Lemma get_settings_miss (w : World) :
  get_settings w None =
    match AppSettings_returns w with
    | inr a => mkRun [EvAppSettings (inr a)] (Some a) (inr a)
    | inl e => mkRun [EvAppSettings (inl e)] None (inl e)
    end.
Proof.
  unfold get_settings, lru_cache, AppSettings_new, call, bind. simpl.
  destruct (AppSettings_returns w); reflexivity.
Qed.

Lemma get_settings_calls_cons (w : World) (ws : list World) (c : Cache) :
  get_settings_calls (w :: ws) c =
    match get_settings w c with
    | mkRun t c' o =>
        match get_settings_calls ws c' with
        | mkRun t' c'' (inr rs) => mkRun (t ++ t') c'' (inr (o :: rs))
        | mkRun t' c'' (inl e) => mkRun (t ++ t') c'' (inl e)
        end
    end.
Proof.
  simpl. unfold bind at 1. unfold attempt.
  destruct (get_settings w c) as [t c' o]. unfold bind, after, ret.
  destruct (get_settings_calls ws c') as [t' c'' [e|rs]]; [reflexivity|].
  now rewrite app_nil_r.
Qed.

Ltac calls_inv_parts rs :=
  exists rs; unfold count;
  split; [|split; [|split; [|split; [|split; [|split]]]]].

Lemma nth_error_cons_from {A : Type} (x : A) (l : list A) (y : A) :
  (forall j, j < length l -> nth_error l j = Some y) ->
  x = y ->
  forall j, j < length (x :: l) -> nth_error (x :: l) j = Some y.
Proof.
  intros Hall -> [|j] Hj; [reflexivity|]. simpl in *. apply Hall. lia.
Qed.

Lemma get_settings_calls_inv (ws : list World) :
  forall c, calls_inv ws c (get_settings_calls ws c).
Proof.
  induction ws as [|w ws IH]; intros c.
  - calls_inv_parts (@nil (Result AppSettings)); unfold count; simpl;
      try reflexivity; try lia.
    + intros [|i] a H; discriminate H.
    + intros a ->. repeat split. intros j Hj. lia.
    + intros _ _ [|j] a; discriminate.
  - rewrite get_settings_calls_cons.
    destruct c as [a0|].
    + rewrite get_settings_hit.
      destruct (IH (Some a0)) as (rs & Ho & Hl & Hs & Hc & _ & Hn & Ha).
      destruct (Hc a0 eq_refl) as (Ht & Hch & Hall).
      destruct (get_settings_calls ws (Some a0)) as [t' c'' o'].
      unfold count in *. simpl in *. subst.
      calls_inv_parts (inr a0 :: rs : list (Result AppSettings)); simpl;
        try reflexivity; try lia.
      * intros [|i] a H; simpl in H.
        -- injection H as <-. split; [reflexivity|].
           intros j _ Hj. now apply nth_error_cons_from.
        -- destruct (Hs i a H) as [Hca Hfrom]. split; [exact Hca|].
           intros [|j] Hij Hj; [lia|]. simpl. apply Hfrom; lia.
      * intros a Ha0. injection Ha0 as <-. repeat split.
        now apply nth_error_cons_from.
      * discriminate.
    + rewrite get_settings_miss. destruct (AppSettings_returns w) as [e|a0].
      * destruct (IH None) as (rs & Ho & Hl & Hs & _ & Hnone & Hn & Ha).
        destruct (get_settings_calls ws None) as [t' c'' o'].
        unfold count in *. simpl in *. subst.
        calls_inv_parts (inl e :: rs : list (Result AppSettings)); simpl;
          try reflexivity; try lia; try assumption.
        -- intros [|i] a H; simpl in H; [discriminate H|].
           destruct (Hs i a H) as [Hca Hfrom]. split; [exact Hca|].
           intros [|j] Hij Hj; [lia|]. simpl. apply Hfrom; lia.
        -- discriminate.
        -- intros _ Hc [|j] a; simpl; [discriminate|]. now apply Hnone.
      * destruct (IH (Some a0)) as (rs & Ho & Hl & Hs & Hc & _ & Hn & Ha).
        destruct (Hc a0 eq_refl) as (Ht & Hch & Hall).
        destruct (get_settings_calls ws (Some a0)) as [t' c'' o'].
      unfold count in *. simpl in *. subst.
        calls_inv_parts (inr a0 :: rs : list (Result AppSettings)); simpl;
          try reflexivity; try lia.
        -- intros [|i] a H; simpl in H.
           ++ injection H as <-. split; [reflexivity|].
              intros j _ Hj. now apply nth_error_cons_from.
           ++ destruct (Hs i a H) as [Hca Hfrom]. split; [exact Hca|].
              intros [|j] Hij Hj; [lia|]. simpl. apply Hfrom; lia.
        -- discriminate.
        -- discriminate.
Qed.

(** C8. Over any sequence of calls of [get_settings], in whatever
    environments, every two calls that return a value return the same one;
    once a call has returned, every later call returns that value;
    [AppSettings()] returns a value at most once, and after it has, it is
    not called again; with a filled cache it is not called at all. *)
Theorem C8_get_settings_constructs_once (ws : list World) (c : Cache) :
  let r := get_settings_calls ws c in
  exists rs,
    outcome r = inr rs /\
    length rs = length ws /\
    (forall i j a b,
       nth_error rs i = Some (inr a) -> nth_error rs j = Some (inr b) -> a = b) /\
    (forall i j a,
       nth_error rs i = Some (inr a) -> i <= j -> j < length rs ->
       nth_error rs j = Some (inr a)) /\
    count is_settings_constructed (trace r) <= 1 /\
    events_after is_settings_constructed (trace r) = [] /\
    (forall a, c = Some a -> trace r = []).
Proof.
  intros r.
  destruct (get_settings_calls_inv ws c) as (rs & Ho & Hl & Hs & Hc & _ & Hn & Ha).
  exists rs. fold r in Ho, Hs, Hc, Hn, Ha.
  repeat split; try assumption.
  - intros i j a b Hi Hj.
    destruct (Hs i a Hi) as [Hca _]. destruct (Hs j b Hj) as [Hcb _]. congruence.
  - intros i j a Hi Hij Hj. now apply (proj2 (Hs i a Hi)).
  - intros a Hca. apply (Hc a Hca).
Qed.

Lemma C8_get_settings_witness :
  exists rs,
    outcome (get_settings_calls sample_calls None) = inr rs /\
    nth_error rs 0 = Some (inl (OtherError "ValidationError")) /\
    nth_error rs 1 = Some (inr good_settings) /\
    nth_error rs 3 = Some (inr good_settings).
Proof.
  destruct (C8_get_settings_constructs_once sample_calls None)
    as (rs & Ho & Hl & _ & Hfrom & _).
  exists rs. split; [exact Ho|].
  assert (H1 : nth_error rs 1 = Some (inr good_settings)).
  { vm_compute in Ho. injection Ho as <-. reflexivity. }
  split; [|split].
  - vm_compute in Ho. injection Ho as <-. reflexivity.
  - exact H1.
  - apply (Hfrom 1 3 good_settings H1).
    + apply le_S, le_S, le_n.
    + rewrite Hl. apply le_n.
Defined.

(** ** Falsy descriptors *)

(** C9. [write_healthcheck_file] tests the truth value of [notify_fd]: the
    descriptor 0 is falsy, as is [None], and for every settings value whose
    [notify_fd] is falsy the function writes nothing, closes nothing and
    returns, exactly as it does for the same settings with no descriptor. *)
Theorem C9_falsy_notify_fd_is_unconfigured :
  py_bool (Some 0%Z) = false /\
  py_bool None = false /\
  forall (w : World) (s : AppSettings) (c : Cache),
    py_bool (notify_fd s) = false ->
    write_healthcheck_file w s c = mkRun [] c (inr tt) /\
    write_healthcheck_file w s c =
      write_healthcheck_file w
        (mkAppSettings (store s) (events s) (force_publish_models s) None
           (include_challenger_models s)) c.
Proof.
  split; [reflexivity|]. split; [reflexivity|].
  intros w s c H. unfold write_healthcheck_file.
  cbv zeta. rewrite H. split; reflexivity.
Qed.

Lemma C9_falsy_notify_fd_witness :
  write_healthcheck_file good_world fd0_settings None = mkRun [] None (inr tt).
Proof.
  apply (proj2 (proj2 C9_falsy_notify_fd_is_unconfigured)
           good_world fd0_settings None).
  reflexivity.
Defined.

(** ** Storage on a failed startup *)

(** C10. When the store kind is supported, [setup_db] returns an engine and
    the events kind is not supported, [lifespan] raises the
    unsupported-events-kind error with the engine acquired and never
    disposed. In every run the dispose comes after the [yield]; a run that
    does not reach its [yield] disposes nothing. *)
Theorem C10_events_error_leaves_storage_undisposed :
  (forall w c s eng,
      outcome (get_settings w c) = inr s ->
      store_type (store s) = "psql" ->
      setup_db_returns w (store s) = inr eng ->
      events_type (events s) <> "mqtt" ->
      let r := lifespan w c in
      outcome r = inl (ValueError (unknown_events_type (events_type (events s)))) /\
      In (EvSetupDb (store s) (inr eng)) (trace r) /\
      occurs is_storage_acquired (trace r) = true /\
      occurs is_engine_dispose (trace r) = false) /\
  (forall w c,
      let tr := trace (lifespan w c) in
      occurs is_engine_dispose tr = true ->
      occurs is_yield (events_before is_engine_dispose tr) = true) /\
  (forall w c,
      let tr := trace (lifespan w c) in
      started tr = false -> occurs is_engine_dispose tr = false).
Proof.
  split; [|split].
  - intros w c s eng Hs Hstore Hdb Hev r. subst r.
    run_cases; bool_facts; try congruence.
    all: injection Hs as <-; use_answers.
    all: repeat split; try reflexivity; solve_in.
  - intros w c tr; subst tr. run_cases; intros H; try discriminate H; reflexivity.
  - intros w c tr; subst tr. run_cases; intros H; try discriminate H; reflexivity.
Qed.

Lemma C10_events_error_witness :
  outcome (lifespan kafka_world None) =
    inl (ValueError (unknown_events_type "kafka")) /\
  In (EvSetupDb psql_store (inr 1)) (trace (lifespan kafka_world None)) /\
  occurs is_storage_acquired (trace (lifespan kafka_world None)) = true /\
  occurs is_engine_dispose (trace (lifespan kafka_world None)) = false.
Proof.
  apply (proj1 C10_events_error_leaves_storage_undisposed
           kafka_world None kafka_settings 1).
  - reflexivity.
  - reflexivity.
  - reflexivity.
  - discriminate.
Defined.

(** ** Beyond the claims: failures of startup and of shutdown *)

(** X1. When [AppSettings()] raises, [lifespan] raises the same exception
    and its run is that one call: nothing is logged, no task is created, no
    collaborator is called, and the cache stays empty. *)
Theorem X1_settings_failure_is_the_whole_run (w : World) (c : Cache) (e : Exn) :
  outcome (get_settings w c) = inl e ->
  lifespan w c = mkRun [EvAppSettings (inl e)] None (inl e).
Proof.
  intros H. run_cases; try discriminate H.
  injection H as <-. reflexivity.
Qed.

Lemma X1_settings_failure_witness :
  lifespan invalid_world None =
    mkRun [EvAppSettings (inl (OtherError "ValidationError"))] None
      (inl (OtherError "ValidationError")).
Proof.
  apply (X1_settings_failure_is_the_whole_run invalid_world None).
  reflexivity.
Defined.

(** X2. A run that does not reach its [yield] ends with an exception and
    undoes nothing: no task is cancelled or awaited and no engine is
    disposed, also when the storage engine had been acquired and the
    listener task created; and whenever the settings were obtained, the
    registry poller task has been created. *)
Theorem X2_failed_startup_is_not_rolled_back (w : World) (c : Cache) :
  let r := lifespan w c in
  started (trace r) = false ->
  (exists e, outcome r = inl e) /\
  occurs is_task_cancel (trace r) = false /\
  occurs is_task_await (trace r) = false /\
  occurs is_engine_dispose (trace r) = false /\
  (forall s, outcome (get_settings w c) = inr s ->
     occurs is_poller_task (trace r) = true).
Proof.
  intros r H; subst r. run_cases; try discriminate H.
  all: repeat split; try reflexivity; try (eexists; reflexivity).
  all: intros s Hs; try discriminate Hs; reflexivity.
Qed.

Lemma X2_failed_startup_witness :
  occurs is_storage_acquired (trace (lifespan models_down_world None)) = true /\
  occurs is_listener_task (trace (lifespan models_down_world None)) = true /\
  (exists e, outcome (lifespan models_down_world None) = inl e) /\
  occurs is_task_cancel (trace (lifespan models_down_world None)) = false /\
  occurs is_engine_dispose (trace (lifespan models_down_world None)) = false.
Proof.
  split; [reflexivity|]. split; [reflexivity|].
  destruct (X2_failed_startup_is_not_rolled_back models_down_world None eq_refl)
    as (He & Hc & _ & Hd & _).
  split; [exact He|]. split; [exact Hc | exact Hd].
Defined.

(** X3. When the served application ends with an exception, it is thrown
    into [lifespan] at the [yield] and leaves it at once: the run ends with
    that exception and nothing follows the [yield], so the listener task,
    which was created, is not cancelled, and the engine, which was acquired,
    is not disposed. *)
Theorem X3_exception_at_yield_skips_shutdown
    (w : World) (c : Cache) (st : LifespanState) (e : Exn) :
  let r := lifespan w c in
  In (EvYield st (inl e)) (trace r) ->
  outcome r = inl e /\
  events_after is_yield (trace r) = [] /\
  occurs is_task_cancel (trace r) = false /\
  occurs is_task_await (trace r) = false /\
  occurs is_engine_dispose (trace r) = false /\
  occurs is_listener_task (trace r) = true /\
  occurs is_storage_acquired (trace r) = true.
Proof.
  intros r H; subst r. run_cases; in_cases H.
  all: injection H as <- <-; repeat split; reflexivity.
Qed.

Lemma X3_exception_at_yield_witness :
  outcome (lifespan serving_fails_world None) = inl (OtherError "RuntimeError") /\
  events_after is_yield (trace (lifespan serving_fails_world None)) = [] /\
  occurs is_engine_dispose (trace (lifespan serving_fails_world None)) = false.
Proof.
  destruct (X3_exception_at_yield_skips_shutdown serving_fails_world None
              sample_state (OtherError "RuntimeError"))
    as (Ho & Ha & _ & _ & Hd & _).
  - vm_compute. solve_in.
  - split; [exact Ho|]. split; [exact Ha | exact Hd].
Defined.

(** X4. When the await of the cancelled listener task ends with an
    exception other than [CancelledError], that exception leaves [lifespan]:
    the await is the last event of the run, and the engine is not
    disposed. *)
Theorem X4_other_listener_exception_skips_dispose
    (w : World) (c : Cache) (t : Task) (e : Exn) :
  let r := lifespan w c in
  In (EvTaskAwait t (inl e)) (trace r) ->
  e <> CancelledError ->
  outcome r = inl e /\
  events_after is_task_await (trace r) = [] /\
  occurs is_engine_dispose (trace r) = false /\
  occurs is_storage_acquired (trace r) = true.
Proof.
  intros r H He; subst r. run_cases; in_cases H.
  all: injection H as <- <-; try congruence.
  all: repeat split; reflexivity.
Qed.

Lemma X4_other_listener_exception_witness :
  outcome (lifespan listener_crashed_world None) = inl (OtherError "MqttError") /\
  occurs is_engine_dispose (trace (lifespan listener_crashed_world None)) = false.
Proof.
  destruct (X4_other_listener_exception_skips_dispose listener_crashed_world None
              sample_listener_task (OtherError "MqttError"))
    as (Ho & _ & Hd & _).
  - vm_compute. solve_in.
  - discriminate.
  - split; [exact Ho | exact Hd].
Defined.

(** X5. When [os.write] raises in [write_healthcheck_file], the descriptor
    is not closed and the exception leaves [lifespan] before the [yield]; the
    write that was tried is the one byte [b"\n"] on the configured
    descriptor. *)
Theorem X5_failed_write_leaves_descriptor_open
    (w : World) (c : Cache) (s : AppSettings) (fd : Z) (data : list Byte.byte) (e : Exn) :
  outcome (get_settings w c) = inr s ->
  let r := lifespan w c in
  In (EvOsWrite fd data (inl e)) (trace r) ->
  notify_fd s = Some fd /\
  data = newline /\
  outcome r = inl e /\
  occurs is_os_close (trace r) = false /\
  started (trace r) = false.
Proof.
  intros Hs r H; subst r. run_cases; in_cases H.
  all: injection Hs as <-.
  all: injection H as <- <- <-; repeat split; try reflexivity; assumption.
Qed.

Lemma X5_failed_write_witness :
  outcome (lifespan write_fails_world None) = inl (OtherError "OSError") /\
  occurs is_os_close (trace (lifespan write_fails_world None)) = false /\
  started (trace (lifespan write_fails_world None)) = false.
Proof.
  destruct (X5_failed_write_leaves_descriptor_open write_fails_world None
              good_settings 3%Z newline (OtherError "OSError") eq_refl)
    as (_ & _ & Ho & Hc & Hs).
  - vm_compute. solve_in.
  - split; [exact Ho|]. split; [exact Hc | exact Hs].
Defined.

(** X6. When [os.close] raises in [write_healthcheck_file], the readiness
    byte has been written to that descriptor, and yet the exception leaves
    [lifespan] before the [yield]: readiness was signalled and no state is
    yielded. *)
Theorem X6_failed_close_after_readiness_byte
    (w : World) (c : Cache) (fd : Z) (e : Exn) :
  let r := lifespan w c in
  In (EvOsClose fd (inl e)) (trace r) ->
  (exists n, In (EvOsWrite fd newline (inr n)) (events_before is_os_close (trace r))) /\
  outcome r = inl e /\
  started (trace r) = false.
Proof.
  intros r H; subst r. run_cases; in_cases H.
  all: injection H as <- <-.
  all: split; [eexists; solve_in | split; reflexivity].
Qed.

Lemma X6_failed_close_witness :
  (exists n, In (EvOsWrite 3 newline (inr n))
               (events_before is_os_close (trace (lifespan close_fails_world None)))) /\
  outcome (lifespan close_fails_world None) = inl (OtherError "OSError") /\
  started (trace (lifespan close_fails_world None)) = false.
Proof.
  apply (X6_failed_close_after_readiness_byte close_fails_world None 3%Z
           (OtherError "OSError")).
  vm_compute. solve_in.
Defined.

(** ** Beyond the claims: what a run shares and leaves behind *)

(** X7. Whenever [lifespan] obtains its settings, it leaves them in the
    cache of [get_settings], however the run ends; a later call of
    [get_settings], in whatever environment, returns these settings and does
    not call [AppSettings()]. *)
Theorem X7_lifespan_leaves_settings_cached
    (w : World) (c : Cache) (s : AppSettings) :
  outcome (get_settings w c) = inr s ->
  cache (lifespan w c) = Some s /\
  forall w', get_settings w' (cache (lifespan w c)) = mkRun [] (Some s) (inr s).
Proof.
  intros Hs.
  assert (Hc : cache (lifespan w c) = Some s).
  { run_cases; try discriminate Hs; injection Hs as <-; reflexivity. }
  split; [exact Hc|]. intros w'. rewrite Hc. reflexivity.
Qed.

Lemma X7_lifespan_cache_witness :
  cache (lifespan kafka_world None) = Some kafka_settings /\
  get_settings good_world (cache (lifespan kafka_world None)) =
    mkRun [] (Some kafka_settings) (inr kafka_settings).
Proof.
  destruct (X7_lifespan_leaves_settings_cached kafka_world None kafka_settings eq_refl)
    as (Hc & Hg).
  split; [exact Hc | exact (Hg good_world)].
Defined.



(** X9. No run disposes the engine more than once. A run of [lifespan] that
    ends without an exception has yielded once, cancelled and awaited the
    listener task once, and disposed the engine once, as its last step. *)
Theorem X9_normal_exit_means_full_shutdown (w : World) (c : Cache) :
  let r := lifespan w c in
  count is_engine_dispose (trace r) <= 1 /\
  (outcome r = inr tt ->
     count is_yield (trace r) = 1 /\
     count is_task_cancel (trace r) = 1 /\
     count is_task_await (trace r) = 1 /\
     count is_engine_dispose (trace r) = 1 /\
     exists e, last (trace r) (EvLogInfo "") = EvEngineDispose e (inr tt)).
Proof.
  intros r; subst r. run_cases; bool_facts.
  all: split; [cbv; lia|].
  all: intros H; try discriminate H.
  all: repeat split; eexists; reflexivity.
Qed.

Lemma X9_normal_exit_witness :
  count is_engine_dispose (trace (lifespan good_world None)) = 1 /\
  last (trace (lifespan good_world None)) (EvLogInfo "") =
    EvEngineDispose 1 (inr tt).
Proof.
  destruct (X9_normal_exit_means_full_shutdown good_world None) as (_ & H).
  destruct (H eq_refl) as (_ & _ & _ & Hd & _).
  split; [exact Hd | reflexivity].
Defined.

(** ** Beyond the claims: the window in use, and failed constructions *)

Section WindowInUse.
Context {A : Type}.
Implicit Types (d : Deque.deque A) (rs : list A) (x : A).

(** One step of a bounded deque, on the list of all that was ever put in. *)
Lemma lastn_snoc_trim (c : nat) (l : list A) x :
  (if Deque.needs_trim (Some c) (length (lastn c l ++ [x]))
   then Deque.popleft_items (lastn c l ++ [x])
   else lastn c l ++ [x]) = lastn c (l ++ [x]).
Proof.
  unfold lastn, Deque.popleft_items, Deque.needs_trim.
  rewrite !length_app, length_skipn. simpl.
  destruct (Nat.ltb_spec c (length l - (length l - c) + 1)) as [Hlt|Hge].
  - destruct (Nat.eq_dec c 0) as [->|Hpos].
    + rewrite Nat.sub_0_r, skipn_all. simpl.
      rewrite skipn_all2; [reflexivity | rewrite length_app; simpl; lia].
    + rewrite tl_app_nonempty.
      * rewrite tl_skipn.
        replace (length l + 1 - c) with (S (length l - c)) by lia.
        rewrite skipn_app.
        replace (S (length l - c) - length l) with 0 by lia.
        reflexivity.
      * intro E. apply (f_equal (@length A)) in E.
        rewrite length_skipn in E. simpl in E. lia.
  - replace (length l - c) with 0 by lia.
    replace (length l + 1 - c) with 0 by lia.
    reflexivity.
Qed.

Lemma appends_items_from (c : nat) d rs :
  Deque.maxlen d = Some c ->
  length (Deque.items d) <= c ->
  Deque.items (Deque.appends d rs) = lastn c (Deque.items d ++ rs).
Proof.
  intros Hm Hl. induction rs as [|x rs IH] using rev_ind.
  - simpl. rewrite app_nil_r. unfold lastn.
    replace (length (Deque.items d) - c) with 0 by lia. reflexivity.
  - rewrite appends_snoc. unfold Deque.append.
    rewrite appends_maxlen, Hm, IH. cbn [Deque.items].
    rewrite lastn_snoc_trim. now rewrite app_assoc.
Qed.

Lemma lastn_app_covered (c : nat) (l rs : list A) :
  c <= length rs -> lastn c (l ++ rs) = lastn c rs.
Proof.
  intros H. unfold lastn. rewrite length_app, skipn_app.
  rewrite skipn_all2 by lia. simpl. f_equal. lia.
Qed.

End WindowInUse.

(** X10. A window of bound 20 that holds at most 20 records keeps holding at
    most 20 through any appends and then holds the last 20 of its former
    records followed by the appended ones; once 20 or more records have been
    appended, it holds the last 20 of those, whatever it held before. *)
Theorem X10_window_forgets_its_history
    (d : Deque.deque EventRecord) (rs : list EventRecord) :
  Deque.maxlen d = Some state_ring_buffer_maxlen ->
  Deque.len d <= state_ring_buffer_maxlen ->
  let d' := Deque.appends d rs in
  Deque.maxlen d' = Some state_ring_buffer_maxlen /\
  Deque.len d' <= state_ring_buffer_maxlen /\
  Deque.snapshot d' = lastn state_ring_buffer_maxlen (Deque.snapshot d ++ rs) /\
  (state_ring_buffer_maxlen <= length rs ->
     Deque.snapshot d' = lastn state_ring_buffer_maxlen rs).
Proof.
  intros Hm Hl d'.
  assert (Hi : Deque.items d' =
               lastn state_ring_buffer_maxlen (Deque.items d ++ rs))
    by now apply appends_items_from.
  split; [unfold d'; now rewrite appends_maxlen|].
  split; [|split].
  - unfold Deque.len. rewrite Hi, lastn_length. lia.
  - exact Hi.
  - intros Hrs. unfold Deque.snapshot. rewrite Hi.
    now apply lastn_app_covered.
Qed.

Lemma X10_window_witness :
  Deque.len (Deque.appends used_window sample_records) <= 20 /\
  Deque.snapshot (Deque.appends used_window sample_records) =
    lastn 20 sample_records.
Proof.
  destruct (X10_window_forgets_its_history used_window sample_records)
    as (_ & Hl & _ & Hs).
  - reflexivity.
  - vm_compute. repeat constructor.
  - split; [exact Hl|]. apply Hs. vm_compute. repeat constructor.
Defined.

(** X11. A failed construction is not cached. Over any sequence of calls of
    [get_settings] that starts with an empty cache, every call that raised
    did call [AppSettings()] and raised its exception, so [AppSettings()]
    raised as many times as calls raised; and a call raises only while no
    earlier call has returned. *)
Theorem X11_failed_construction_is_not_cached (ws : list World) :
  let r := get_settings_calls ws None in
  exists rs,
    outcome r = inr rs /\
    count event_raised (trace r) = failures rs /\
    count is_app_settings_call (trace r) =
      failures rs + count is_settings_constructed (trace r) /\
    (forall i e, nth_error rs i = Some (inl e) ->
       (exists w, nth_error ws i = Some w /\ AppSettings_returns w = inl e) /\
       forall j, j <= i -> exists e', nth_error rs j = Some (inl e')).
Proof.
  intros r; subst r. induction ws as [|w ws IH].
  - exists []. split; [reflexivity|]. split; [reflexivity|].
    split; [reflexivity|]. intros [|i] e H; discriminate H.
  - rewrite get_settings_calls_cons, get_settings_miss.
    destruct (AppSettings_returns w) as [e0|a0] eqn:Hw.
    + destruct IH as (rs & Ho & Hr & Hn & Hf).
      destruct (get_settings_calls ws None) as [t' c'' o'].
      unfold count, failures in *. simpl in *. subst o'.
      exists (inl e0 :: rs). simpl.
      split; [reflexivity|]. split; [now f_equal|]. split; [now f_equal|].
      intros [|i] e H; simpl in H.
      * injection H as <-. split.
        -- exists w. split; [reflexivity | exact Hw].
        -- intros j Hj. replace j with 0 by lia. eexists; reflexivity.
      * destruct (Hf i e H) as [Hwi Hbefore]. split; [exact Hwi|].
        intros [|j] Hj; simpl; [eexists; reflexivity|].
        apply Hbefore. lia.
    + destruct (get_settings_calls_inv ws (Some a0))
        as (rs & Ho & _ & _ & Hc & _).
      destruct (Hc a0 eq_refl) as (Ht & _ & Hall).
      destruct (get_settings_calls ws (Some a0)) as [t' c'' o'].
      unfold count, failures in *. simpl in *. subst o' t'.
      assert (Hnone : forall i e, nth_error rs i <> Some (inl e)).
      { intros i e H.
        assert (Hi : i < length rs) by (apply nth_error_Some; congruence).
        rewrite (Hall i Hi) in H. discriminate H. }
      assert (Hfil : filter call_raised rs = []).
      { clear -Hnone. induction rs as [|[e|a] rs IHrs]; [reflexivity| |].
        - exfalso. apply (Hnone 0 e). reflexivity.
        - simpl. apply IHrs. intros i e H. apply (Hnone (S i) e). exact H. }
      exists (inr a0 :: rs). simpl. rewrite Hfil.
      split; [reflexivity|]. split; [reflexivity|]. split; [reflexivity|].
      intros [|i] e H; simpl in H; [discriminate H|].
      exfalso. apply (Hnone i e H).
Qed.

Lemma X11_failed_construction_witness :
  exists rs,
    outcome (get_settings_calls sample_calls None) = inr rs /\
    count event_raised (trace (get_settings_calls sample_calls None)) = failures rs /\
    exists w, nth_error sample_calls 0 = Some w /\
              AppSettings_returns w = inl (OtherError "ValidationError").
Proof.
  destruct (X11_failed_construction_is_not_cached sample_calls)
    as (rs & Ho & Hr & _ & Hf).
  exists rs. split; [exact Ho|]. split; [exact Hr|].
  apply (Hf 0 (OtherError "ValidationError")).
  vm_compute in Ho. injection Ho as <-. reflexivity.
Defined.

(** ** Beyond the claims: what startup touches, and in which order *)

(** X12. [lifespan] writes to and closes no descriptor but the configured
    one: in every run, a write is of the one byte [b"\n"] to the configured
    descriptor, which is not 0, a close is of that descriptor and follows a
    write that returned, and there is at most one write and one close. *)
Theorem X12_only_the_configured_descriptor
    (w : World) (c : Cache) (s : AppSettings) :
  outcome (get_settings w c) = inr s ->
  let tr := trace (lifespan w c) in
  (forall fd data r, In (EvOsWrite fd data r) tr ->
     notify_fd s = Some fd /\ fd <> 0%Z /\ data = newline) /\
  (forall fd r, In (EvOsClose fd r) tr ->
     notify_fd s = Some fd /\
     exists n, In (EvOsWrite fd newline (inr n)) (events_before is_os_close tr)) /\
  count is_os_write tr <= 1 /\
  count is_os_close tr <= 1.
Proof.
  intros Hs tr; subst tr. run_cases; bool_facts; try discriminate Hs.
  all: injection Hs as <-.
  all: split; [intros fd data r H; in_cases H|].
  all: try (injection H as <- <- <-; repeat split; assumption).
  all: split; [intros fd r H; in_cases H|].
  all: try (injection H as <- <-; split; [assumption | eexists; solve_in]).
  all: split; cbv; lia.
Qed.

Lemma X12_only_the_configured_descriptor_witness :
  (forall fd data r, In (EvOsWrite fd data r) (trace (lifespan good_world None)) ->
     notify_fd good_settings = Some fd /\ fd <> 0%Z /\ data = newline) /\
  count is_os_write (trace (lifespan good_world None)) <= 1.
Proof.
  destruct (X12_only_the_configured_descriptor good_world None good_settings eq_refl)
    as (Hw & _ & Hn & _).
  split; [exact Hw | exact Hn].
Defined.

(** X13. On every run that reaches its [yield], the storage engine is
    acquired, then the event-bus client is constructed, then the listener
    task is created, then the models are logged, then MLflow is connected,
    and then the state is yielded; none of these calls raised. *)
Theorem X13_full_startup_order (w : World) (c : Cache) :
  let tr := trace (lifespan w c) in
  started tr = true ->
  exists i j k l m n,
    position is_storage_acquired tr = Some i /\
    position is_setup_mqtt_client tr = Some j /\
    position is_listener_task tr = Some k /\
    position is_log_system_models tr = Some l /\
    position is_connect_to_mlflow tr = Some m /\
    position is_yield tr = Some n /\
    i < j /\ j < k /\ k < l /\ l < m /\ m < n /\
    occurs event_raised (events_before is_yield tr) = false.
Proof.
  intros tr; subst tr. run_cases; intros H; try discriminate H.
  all: do 6 eexists; repeat split; try reflexivity; lia.
Qed.

Lemma X13_full_startup_order_witness :
  exists i j k l m n,
    position is_storage_acquired (trace (lifespan good_world None)) = Some i /\
    position is_setup_mqtt_client (trace (lifespan good_world None)) = Some j /\
    position is_listener_task (trace (lifespan good_world None)) = Some k /\
    position is_log_system_models (trace (lifespan good_world None)) = Some l /\
    position is_connect_to_mlflow (trace (lifespan good_world None)) = Some m /\
    position is_yield (trace (lifespan good_world None)) = Some n /\
    i < j /\ j < k /\ k < l /\ l < m /\ m < n /\
    occurs event_raised
      (events_before is_yield (trace (lifespan good_world None))) = false.
Proof. apply (X13_full_startup_order good_world None). reflexivity. Defined.
